(** * dbapi: queries over the ip addresses database

    A shallow embedding of [dbapi/dbapi.py].  Every function of the module
    takes a [MySQLdb] connection as its first parameter, builds one or two SQL
    statements by string formatting, runs them through a cursor of that
    connection and returns the fetched rows.

    The embedding keeps that shape:
    - an SQL text is a [statement], one constructor per template of the
      module, holding the values that are formatted into the template;
    - the connection is an explicit state ([connection]) threaded through a
      small state-and-exception monad ([M]); the state records the cursors
      that are open, the rows of the last executed statement and every call
      made on the cursor, in order;
    - [netaddr.IPAddress], which is a library outside the module, is a
      parameter of the development ([Section Dbapi]);
    - the MySQL server is [run]: the meaning of each of the six statement
      shapes over tables held as lists of rows.  The source name is pasted
      between double quotes into the text of the by-source statement: [run]
      gives that statement its meaning when the name is the body of one
      string literal ([plain_name]), and otherwise answers what the server
      behind the connection answers for the text ([answer_by_source]), which
      may be an error or any rows.

    The calls to [MODULE_LOGGER.debug] are left out: they return nothing and
    touch neither the connection nor the result. *)

From Stdlib Require Import List String Ascii NArith ZArith Bool Lia.
Import ListNotations.
Local Open Scope string_scope.
Local Open Scope list_scope.

(** ** Python values *)

(** [netaddr.IPAddress(...).version] is the int 4 or the int 6. *)
Inductive ip_version : Type := V4 | V6.

Definition version_number (v : ip_version) : N :=
  match v with V4 => 4 | V6 => 6 end.

Definition version_eqb (a b : ip_version) : bool :=
  match a, b with
  | V4, V4 | V6, V6 => true
  | _, _ => false
  end.

(** What the module reads of a [netaddr.IPAddress] object: [version] and
    [value] (also what [__index__] returns, hence what [bin] prints). *)
Record IPAddr : Type := { version : ip_version; value : N }.

(** The first component of what [get_ip_data] returns: a Python int for a
    version 4 address, a Python str for a version 6 address. *)
Inductive ip_value : Type :=
| IntValue (n : N)
| StrValue (s : string).

(** Python's [bin] on a non-negative int: ["0b"] and then the binary digits,
    most significant first, ["0b0"] for zero. *)
Fixpoint bin_digits (p : positive) (acc : string) : string :=
  match p with
  | xH => String "1" acc
  | xO p' => bin_digits p' (String "0" acc)
  | xI p' => bin_digits p' (String "1" acc)
  end.

Definition bin (n : N) : string :=
  ("0b" ++ match n with
           | N0 => "0"
           | Npos p => bin_digits p ""
           end)%string.

(** A naive [datetime.datetime] (no [tzinfo]), as [datetime(...)] and
    [datetime.now()] build it: the day ([toordinal()]) and the time within
    the day.  Between two naive datetimes [>] compares the day and then the
    time; [.date()] keeps the day.  Datetimes that carry a time zone are
    not modelled. *)
Record datetime : Type := { ordinal : Z; time_of_day : Z }.

Definition date (d : datetime) : Z := ordinal d.

Definition datetime_gt (a b : datetime) : bool :=
  (ordinal b <? ordinal a)%Z
  || ((ordinal a =? ordinal b)%Z && (time_of_day b <? time_of_day a)%Z).

(** The [limit] parameter: [None] or a tuple [(offset, row_count)].  A tuple
    of two items is truthy whatever the items are, so [if limit:] is the
    test [limit is not None]. *)
Definition limit_spec : Type := option (nat * nat).

(** The exceptions a call can end with. *)
Inductive error : Type :=
| AddrFormatError                 (* netaddr refuses the literal *)
| Exception (message : string)    (* raise Exception("...") *)
| DatabaseError                   (* raised by MySQLdb for a statement *)
| TypeError.                      (* subscripting the None of fetchone() *)

Definition VersionMismatchError : error :=
  Exception "Different ip versions in start and end".
Definition InvalidRangeError : error :=
  Exception "End date is before start date".
Definition IntegrityViolationError : error :=
  Exception "Ip both in white and black lists, something wrong".

Inductive result (A : Type) : Type :=
| Ok (a : A)
| Err (e : error).
Arguments Ok {A} a.
Arguments Err {A} e.

(** ** The datastore *)

Inductive list_name : Type := Whitelist | Blacklist.

Definition list_name_str (l : list_name) : string :=
  match l with Whitelist => "whitelist" | Blacklist => "blacklist" end.

(** The SQL texts of the module.  Each constructor stands for one template
    after [format]; [limit] is the [LIMIT offset, row_count] clause put in
    front of the final semicolon when the [limit] parameter is set.

    - [SelectBySource v name limit]:
      SELECT * FROM ip<v>_addresses WHERE id IN
      (SELECT source_to_addresses.<v>_id FROM source_to_addresses
       JOIN sources ON source_to_addresses.source_id = sources.id
       WHERE sources.source_name = "<name>")
      with <name> pasted as it is, whatever characters it holds
    - [SelectAddressRange v lo hi limit]:
      SELECT * FROM ipv<v>_addresses WHERE address BETWEEN <lo> AND <hi>
    - [CountInList l v a]:
      SELECT count( * ) FROM <l> WHERE v<v>_id_<l> =
      (SELECT id FROM ipv<v>_addresses WHERE address = <a>)
    - [SelectAddedBetween v d1 d2 limit]:
      SELECT * FROM ipv<v>_addresses
      WHERE date_added BETWEEN '<d1>' AND '<d2>'
    - [SelectSourcesModified d1 d2 limit]:
      SELECT * FROM sources WHERE url_date_modified BETWEEN "<d1>" AND "<d2>"
    - [CountAddress v a]:
      SELECT count(id) FROM ipv<v>_addresses WHERE address = <a> *)
Inductive statement : Type :=
| SelectBySource (v : ip_version) (sourcename : string) (limit : limit_spec)
| SelectAddressRange (v : ip_version) (lo hi : ip_value) (limit : limit_spec)
| CountInList (l : list_name) (v : ip_version) (a : ip_value)
| SelectAddedBetween (v : ip_version) (d1 d2 : Z) (limit : limit_spec)
| SelectSourcesModified (d1 d2 : Z) (limit : limit_spec)
| CountAddress (v : ip_version) (a : ip_value).

(** Rows of [ipv4_addresses] and [ipv6_addresses]. *)
Record address_row : Type :=
  { a_id : N; a_address : N; a_date_added : Z }.

(** Rows of [sources]. *)
Record source_row : Type :=
  { s_id : N; s_source_name : string; s_url_date_modified : Z }.

(** Rows of [source_to_addresses]; a foreign key may be NULL. *)
Record link_row : Type :=
  { l_v4_id : option N; l_v6_id : option N; l_source_id : N }.

(** Rows of [whitelist] and of [blacklist]: the columns [v4_id_<list>] and
    [v6_id_<list>]. *)
Record listing_row : Type :=
  { e_v4_id : option N; e_v6_id : option N }.

(** A fetched row. *)
Inductive row : Type :=
| AddressRow (r : address_row)
| SourceRow (r : source_row)
| CountRow (n : N).

(** The server behind a connection: its six tables, and two things the
    module leaves to it.
    - [source_name_eq] is the [=] of the column [sources.source_name]
      against a string, as the collation of the column decides it (a
      binary collation compares the characters, others ignore case or
      trailing spaces).
    - [answer_by_source v name limit] is the answer to the text of the
      by-source statement when [name] holds a double quote or a backslash:
      the quote ends the string literal inside the pasted name, so the
      text is another statement or none, and the server may refuse it or
      return rows that have nothing to do with [name]. *)
Record database : Type :=
  { ipv4_addresses : list address_row;
    ipv6_addresses : list address_row;
    sources : list source_row;
    source_to_addresses : list link_row;
    whitelist : list listing_row;
    blacklist : list listing_row;
    source_name_eq : string -> string -> bool;
    answer_by_source : ip_version -> string -> limit_spec -> result (list row) }.

(** [row[0]]. *)
Definition first_column (r : row) : N :=
  match r with
  | AddressRow a => a_id a
  | SourceRow s => s_id s
  | CountRow n => n
  end.

(** A number written into a statement.  An int is printed in decimal; the
    str of [bin] is printed as it is and reads as a bit-value literal
    [0b...], taken here as the unsigned integer it denotes. *)
Fixpoint bits_value (s : string) (acc : N) : option N :=
  match s with
  | EmptyString => Some acc
  | String c s' =>
      if Ascii.eqb c "0" then bits_value s' (2 * acc)
      else if Ascii.eqb c "1" then bits_value s' (2 * acc + 1)
      else None
  end.

Definition bit_literal (s : string) : option N :=
  match s with
  | String "0" (String "b" (String c s')) => bits_value (String c s') 0
  | _ => None
  end.

(** What [bits_value] has read after the binary digits of [p], when it had
    read [a] before them. *)
Fixpoint shift_digits (a : N) (p : positive) : N :=
  match p with
  | xH => 2 * a + 1
  | xO p' => 2 * shift_digits a p'
  | xI p' => 2 * shift_digits a p' + 1
  end.

Definition literal_value (x : ip_value) : option N :=
  match x with
  | IntValue n => Some n
  | StrValue s => bit_literal s
  end.

Definition addresses_of (db : database) (v : ip_version) : list address_row :=
  match v with V4 => ipv4_addresses db | V6 => ipv6_addresses db end.

Definition listing_of (db : database) (l : list_name) : list listing_row :=
  match l with Whitelist => whitelist db | Blacklist => blacklist db end.

Definition link_id (v : ip_version) (k : link_row) : option N :=
  match v with V4 => l_v4_id k | V6 => l_v6_id k end.

Definition listing_id (v : ip_version) (e : listing_row) : option N :=
  match v with V4 => e_v4_id e | V6 => e_v6_id e end.

Definition is_id (i : N) (o : option N) : bool :=
  match o with Some j => N.eqb i j | None => false end.

(** [LIMIT offset, row_count]. *)
Definition apply_limit {A : Type} (limit : limit_spec) (rows : list A) : list A :=
  match limit with
  | None => rows
  | Some (offset, row_count) => firstn row_count (skipn offset rows)
  end.

(** The characters that do not stand for themselves between the double
    quotes of a MySQL string literal. *)
Definition double_quote : ascii := ascii_of_nat 34.
Definition backslash : ascii := ascii_of_nat 92.

(** The name holds no double quote and no backslash: pasted between double
    quotes (line 50) it is the body of one string literal, which denotes
    the name. *)
Fixpoint plain_name (sourcename : string) : bool :=
  match sourcename with
  | EmptyString => true
  | String ch rest =>
      negb (Ascii.eqb ch double_quote) && negb (Ascii.eqb ch backslash)
      && plain_name rest
  end.

(** The ids the by-source subquery selects, for a plain name. *)
Definition source_address_ids (db : database) (v : ip_version)
    (sourcename : string) : list (option N) :=
  map (link_id v)
    (filter (fun k =>
               existsb (fun s => N.eqb (l_source_id k) (s_id s)
                                 && source_name_eq db (s_source_name s)
                                      sourcename)
                 (sources db))
       (source_to_addresses db)).

Definition rows_by_source (db : database) (v : ip_version)
    (sourcename : string) : list address_row :=
  filter (fun r => existsb (is_id (a_id r)) (source_address_ids db v sourcename))
    (addresses_of db v).

Definition rows_between (db : database) (v : ip_version) (lo hi : N)
  : list address_row :=
  filter (fun r => N.leb lo (a_address r) && N.leb (a_address r) hi)
    (addresses_of db v).

Definition rows_equal (db : database) (v : ip_version) (n : N)
  : list address_row :=
  filter (fun r => N.eqb (a_address r) n) (addresses_of db v).

Definition rows_added_between (db : database) (v : ip_version) (d1 d2 : Z)
  : list address_row :=
  filter (fun r => Z.leb d1 (a_date_added r) && Z.leb (a_date_added r) d2)
    (addresses_of db v).

Definition sources_modified_between (db : database) (d1 d2 : Z)
  : list source_row :=
  filter (fun s => Z.leb d1 (s_url_date_modified s)
                   && Z.leb (s_url_date_modified s) d2)
    (sources db).

(** The count of the rows of a list whose key is the id of the address.  The
    inner SELECT is a scalar subquery: no row is NULL (no key equals it), and
    more than one row is an error of the server. *)
Definition list_count (db : database) (l : list_name) (v : ip_version) (n : N)
  : result N :=
  match rows_equal db v n with
  | [] => Ok 0%N
  | [r] => Ok (N.of_nat (List.length (filter (fun e => is_id (a_id r) (listing_id v e))
                                   (listing_of db l))))
  | _ :: _ :: _ => Err DatabaseError
  end.

Definition address_count (db : database) (v : ip_version) (n : N) : N :=
  N.of_nat (List.length (rows_equal db v n)).

(** The rows the server answers a statement with. *)
Definition run (db : database) (s : statement) : result (list row) :=
  match s with
  | SelectBySource v sourcename limit =>
      if plain_name sourcename
      then Ok (map AddressRow
                 (apply_limit limit (rows_by_source db v sourcename)))
      else answer_by_source db v sourcename limit
  | SelectAddressRange v lo hi limit =>
      match literal_value lo, literal_value hi with
      | Some l, Some h =>
          Ok (map AddressRow (apply_limit limit (rows_between db v l h)))
      | _, _ => Err DatabaseError
      end
  | CountInList l v a =>
      match literal_value a with
      | Some n =>
          match list_count db l v n with
          | Ok c => Ok [CountRow c]
          | Err e => Err e
          end
      | None => Err DatabaseError
      end
  | SelectAddedBetween v d1 d2 limit =>
      Ok (map AddressRow (apply_limit limit (rows_added_between db v d1 d2)))
  | SelectSourcesModified d1 d2 limit =>
      Ok (map SourceRow (apply_limit limit (sources_modified_between db d1 d2)))
  | CountAddress v a =>
      match literal_value a with
      | Some n => Ok [CountRow (address_count db v n)]
      | None => Err DatabaseError
      end
  end.

(** ** The connection and its cursor *)

(** The calls an operation makes on the connection and on its cursor. *)
Inductive event : Type :=
| Cursor                    (* connection.cursor() *)
| Execute (s : statement)   (* cursor.execute(sql) *)
| Fetchall                  (* cursor.fetchall() *)
| Fetchone                  (* cursor.fetchone() *)
| Close.                    (* cursor.close() *)

(** The connection as an operation sees it: the database behind it, how many
    cursors obtained from it are not closed, the rows of the last executed
    statement that were not fetched yet, and the calls made so far, oldest
    first.  An operation works with the one cursor it obtained. *)
Record connection : Type :=
  { db : database;
    open_cursors : nat;
    result_set : list row;
    calls : list event }.

Definition M (A : Type) : Type := connection -> result A * connection.

Definition ret {A : Type} (a : A) : M A := fun c => (Ok a, c).

Definition raise {A : Type} (e : error) : M A := fun c => (Err e, c).

(** An exception ends the operation where it is raised: the rest does not
    run, and the connection stays as it was at that point. *)
Definition bind {A B : Type} (m : M A) (k : A -> M B) : M B :=
  fun c =>
    match m c with
    | (Ok a, c') => k a c'
    | (Err e, c') => (Err e, c')
    end.

Definition lift {A : Type} (r : result A) : M A := fun c => (r, c).

Notation "x <- m ;; k" := (bind m (fun x => k))
  (at level 61, m at next level, right associativity).
Notation "' p <- m ;; k" := (bind m (fun p => k))
  (at level 61, p pattern, m at next level, right associativity).
Notation "m ;; k" := (bind m (fun _ => k))
  (at level 61, right associativity).

Definition cursor : M unit :=
  fun c => (Ok tt, {| db := db c;
                      open_cursors := S (open_cursors c);
                      result_set := [];
                      calls := calls c ++ [Cursor] |}).

Definition execute (sql : statement) : M unit :=
  fun c =>
    match run (db c) sql with
    | Ok rows => (Ok tt, {| db := db c;
                            open_cursors := open_cursors c;
                            result_set := rows;
                            calls := calls c ++ [Execute sql] |})
    | Err e => (Err e, {| db := db c;
                          open_cursors := open_cursors c;
                          result_set := [];
                          calls := calls c ++ [Execute sql] |})
    end.

Definition fetchall : M (list row) :=
  fun c => (Ok (result_set c), {| db := db c;
                                  open_cursors := open_cursors c;
                                  result_set := [];
                                  calls := calls c ++ [Fetchall] |}).

Definition fetchone : M (option row) :=
  fun c => (Ok (hd_error (result_set c)),
            {| db := db c;
               open_cursors := open_cursors c;
               result_set := tl (result_set c);
               calls := calls c ++ [Fetchone] |}).

(** [row[0]] on what [fetchone()] returned. *)
Definition item0 (r : option row) : M N :=
  match r with
  | Some r => ret (first_column r)
  | None => raise TypeError
  end.

Definition close : M unit :=
  fun c => (Ok tt, {| db := db c;
                      open_cursors := pred (open_cursors c);
                      result_set := [];
                      calls := calls c ++ [Close] |}).

(** The statements among the calls, in the order they were executed. *)
Fixpoint executed (t : list event) : list statement :=
  match t with
  | [] => []
  | Execute s :: t' => s :: executed t'
  | _ :: t' => executed t'
  end.

(** ** The operations *)

(** The body of [get_ip_data] once [IPAddress(ip_address)] has returned. *)
Definition ip_data (ip : IPAddr) : ip_value * ip_version :=
  let ip_version := version ip in
  let ip_value :=
    if version_eqb ip_version V4 then IntValue (value ip)
    else StrValue (bin (value ip)) in
  (ip_value, ip_version).

Section Dbapi.

(** [netaddr.IPAddress(text)]: the parsed address, or [None] where netaddr
    raises [AddrFormatError]. *)
Variable IPAddress : string -> option IPAddr.

(** [get_ip_data], lines 15-25. *)
Definition get_ip_data (ip_address : string) : result (ip_value * ip_version) :=
  match IPAddress ip_address with
  | None => Err AddrFormatError
  | Some ip => Ok (ip_data ip)
  end.

(** [get_ip_with_source_name], lines 28-70. *)
Definition get_ip_with_source_name (sourcename : string) (limit : limit_spec)
  : M (list row) :=
  cursor ;;
  let sql_v4 := SelectBySource V4 sourcename limit in
  let sql_v6 := SelectBySource V6 sourcename limit in
  execute sql_v4 ;;
  result_v4 <- fetchall ;;
  execute sql_v6 ;;
  result_v6 <- fetchall ;;
  let result := result_v4 ++ result_v6 in
  close ;;
  ret result.

(** [get_ip_from_range], lines 73-109: the cursor is obtained first, the
    versions are compared before [execute]. *)
Definition get_ip_from_range (start end_ : string) (limit : limit_spec)
  : M (list row) :=
  cursor ;;
  ' (start_value, start_version) <- lift (get_ip_data start) ;;
  ' (end_value, end_version) <- lift (get_ip_data end_) ;;
  if negb (version_eqb start_version end_version)
  then raise VersionMismatchError
  else
    execute (SelectAddressRange start_version start_value end_value limit) ;;
    result <- fetchall ;;
    close ;;
    ret result.

(** [find_ip_list_type], lines 112-147: returns the list name, or [None];
    [cursor.close()] stands after the test of equal counts. *)
Definition find_ip_list_type (ip_address : string) : M (option string) :=
  cursor ;;
  ' (ip_value, ip_version) <- lift (get_ip_data ip_address) ;;
  let sql_whitelist := CountInList Whitelist ip_version ip_value in
  let sql_blacklist := CountInList Blacklist ip_version ip_value in
  execute sql_whitelist ;;
  whitelist_count <- (r <- fetchone ;; item0 r) ;;
  execute sql_blacklist ;;
  blacklist_count <- (r <- fetchone ;; item0 r) ;;
  if N.eqb whitelist_count blacklist_count
  then
    if N.ltb 0 whitelist_count
    then raise IntegrityViolationError
    else ret None
  else
    close ;;
    let list_name :=
      if N.ltb 0 whitelist_count then "whitelist" else "blacklist" in
    ret (Some list_name).

(** [get_ips_added_in_range], lines 150-187: the dates are compared before
    the cursor is obtained. *)
Definition get_ips_added_in_range (startdate enddate : datetime)
    (limit : limit_spec) : M (list row) :=
  if datetime_gt startdate enddate
  then raise InvalidRangeError
  else
    cursor ;;
    let sql_v4 := SelectAddedBetween V4 (date startdate) (date enddate) limit in
    execute sql_v4 ;;
    result_v4 <- fetchall ;;
    let sql_v6 := SelectAddedBetween V6 (date startdate) (date enddate) limit in
    execute sql_v6 ;;
    result_v6 <- fetchall ;;
    close ;;
    ret (result_v4 ++ result_v6).

(** [get_sources_modified_in_range], lines 190-220. *)
Definition get_sources_modified_in_range (startdate enddate : datetime)
    (limit : limit_spec) : M (list row) :=
  cursor ;;
  let sql := SelectSourcesModified (date startdate) (date enddate) limit in
  execute sql ;;
  result <- fetchall ;;
  close ;;
  ret result.

(** [check_if_ip_in_database], lines 223-247: the address is decoded before
    the cursor is obtained. *)
Definition check_if_ip_in_database (ip_address : string) : M bool :=
  ' (ip_value, ip_version) <- lift (get_ip_data ip_address) ;;
  let sql := CountAddress ip_version ip_value in
  cursor ;;
  execute sql ;;
  result <- (r <- fetchone ;; item0 r) ;;
  close ;;
  let result := if N.eqb result 0 then false else true in
  ret result.

End Dbapi.

(** ** Concrete data for evaluating the operations *)

(** A stand-in for netaddr that knows four literals. *)
Definition sample_IPAddress (text : string) : option IPAddr :=
  if String.eqb text "10.0.0.5" then Some {| version := V4; value := 167772165 |}
  else if String.eqb text "10.0.0.9" then Some {| version := V4; value := 167772169 |}
  else if String.eqb text "::1" then Some {| version := V6; value := 1 |}
  else if String.eqb text "::ff" then Some {| version := V6; value := 255 |}
  else None.

(** Two addresses of each version, all from the source "Spamhaus";
    10.0.0.5 is in the whitelist only, 10.0.0.9 and the version 6 addresses
    are in neither list.  The column [source_name] has a binary collation,
    and this stand-in for a server refuses every by-source text whose name
    is not plain, as a server refuses a text with an unbalanced quote. *)
Definition sample_database : database :=
  {| ipv4_addresses :=
       [ {| a_id := 1; a_address := 167772165; a_date_added := 737000 |};
         {| a_id := 2; a_address := 167772169; a_date_added := 737005 |} ];
     ipv6_addresses :=
       [ {| a_id := 1; a_address := 1; a_date_added := 737001 |};
         {| a_id := 2; a_address := 255; a_date_added := 737003 |} ];
     sources :=
       [ {| s_id := 1; s_source_name := "Spamhaus";
            s_url_date_modified := 737010 |} ];
     source_to_addresses :=
       [ {| l_v4_id := Some 1%N; l_v6_id := None; l_source_id := 1 |};
         {| l_v4_id := Some 2%N; l_v6_id := None; l_source_id := 1 |};
         {| l_v4_id := None; l_v6_id := Some 1%N; l_source_id := 1 |};
         {| l_v4_id := None; l_v6_id := Some 2%N; l_source_id := 1 |} ];
     whitelist := [ {| e_v4_id := Some 1%N; e_v6_id := None |} ];
     blacklist := [];
     source_name_eq := String.eqb;
     answer_by_source := fun _ _ _ => Err DatabaseError |}.

(** The same tables, with 10.0.0.5 once in the whitelist and twice in the
    blacklist, and ::1 once in each. *)
Definition conflicting_database : database :=
  {| ipv4_addresses := ipv4_addresses sample_database;
     ipv6_addresses := ipv6_addresses sample_database;
     sources := sources sample_database;
     source_to_addresses := source_to_addresses sample_database;
     whitelist := [ {| e_v4_id := Some 1%N; e_v6_id := None |};
                    {| e_v4_id := None; e_v6_id := Some 1%N |} ];
     blacklist := [ {| e_v4_id := Some 1%N; e_v6_id := None |};
                    {| e_v4_id := Some 1%N; e_v6_id := None |};
                    {| e_v4_id := None; e_v6_id := Some 1%N |} ];
     source_name_eq := source_name_eq sample_database;
     answer_by_source := answer_by_source sample_database |}.

(** A source with twelve addresses of each version. *)
Definition twelve_addresses : list address_row :=
  map (fun i => {| a_id := N.of_nat i;
                   a_address := N.of_nat (100 + i);
                   a_date_added := 737000 |})
    (seq 1 12).

Definition large_database : database :=
  {| ipv4_addresses := twelve_addresses;
     ipv6_addresses := twelve_addresses;
     sources := [ {| s_id := 7; s_source_name := "X";
                     s_url_date_modified := 737000 |} ];
     source_to_addresses :=
       map (fun i => {| l_v4_id := Some (N.of_nat i);
                        l_v6_id := Some (N.of_nat i);
                        l_source_id := 7 |})
         (seq 1 12);
     whitelist := [];
     blacklist := [];
     source_name_eq := String.eqb;
     answer_by_source := fun _ _ _ => Err DatabaseError |}.

(** A connection on which nothing was called yet. *)
Definition connect (d : database) : connection :=
  {| db := d; open_cursors := 0; result_set := []; calls := [] |}.

Definition day (n : Z) : datetime := {| ordinal := n; time_of_day := 0 |}.

(** The source name a, double quote, b: the quote ends the string literal
    after the a and leaves the rest of the text unbalanced. *)
Definition unbalanced_name : string :=
  String "a" (String double_quote (String "b" EmptyString)).

(** The list the specification names for counts that differ: the one with
    the larger count. *)
Definition larger_count_list (whitelist_count blacklist_count : N) : string :=
  if N.ltb whitelist_count blacklist_count then "blacklist" else "whitelist".

(** The address row [r] is linked, through the version [v] key of
    [source_to_addresses], to a source whose name equals [sourcename] for
    the server. *)
Definition linked_to_source (d : database) (v : ip_version)
    (sourcename : string) (r : address_row) : Prop :=
  exists (k : link_row) (s : source_row),
    In k (source_to_addresses d) /\ In s (sources d)
    /\ l_source_id k = s_id s
    /\ source_name_eq d (s_source_name s) sourcename = true
    /\ link_id v k = Some (a_id r).

(** * Properties *)

(** ** Numbers written into statements *)

Lemma shift_digits_0 (p : positive) : shift_digits 0 p = Npos p.
Proof.
  induction p as [p IH | p IH |]; simpl; try rewrite IH; reflexivity.
Qed.

Lemma bits_value_bin_digits (p : positive) :
  forall (acc : string) (a : N),
    bits_value (bin_digits p acc) a = bits_value acc (shift_digits a p).
Proof.
  induction p as [p IH | p IH |]; intros acc a; simpl.
  - rewrite IH. reflexivity.
  - rewrite IH. reflexivity.
  - reflexivity.
Qed.

Lemma bin_digits_cons (p : positive) :
  forall acc : string, exists c s, bin_digits p acc = String c s.
Proof.
  induction p as [p IH | p IH |]; intros acc; simpl; eauto.
Qed.

(** The server reads back from the text of [bin n] the number [n]. *)
Lemma bit_literal_bin (n : N) : bit_literal (bin n) = Some n.
Proof.
  destruct n as [| p].
  - reflexivity.
  - unfold bin. cbn [append].
    destruct (bin_digits_cons p "") as (c & s & E).
    unfold bit_literal. rewrite E, <- E.
    rewrite bits_value_bin_digits. cbn [bits_value].
    rewrite shift_digits_0. reflexivity.
Qed.

Lemma bin_prefix (n : N) : exists digits, bin n = ("0b" ++ digits)%string.
Proof.
  unfold bin. eauto.
Qed.

Lemma ip_data_inv (ip : IPAddr) (x : ip_value) (v : ip_version) :
  ip_data ip = (x, v) ->
  v = version ip /\ literal_value x = Some (value ip).
Proof.
  unfold ip_data. intros E. inversion E; subst. split; [reflexivity |].
  destruct (version ip); simpl; [reflexivity | apply bit_literal_bin].
Qed.

Lemma version_eqb_eq (a b : ip_version) : version_eqb a b = true <-> a = b.
Proof.
  destruct a, b; simpl; split; congruence.
Qed.

Lemma version_eqb_refl (a : ip_version) : version_eqb a a = true.
Proof.
  destruct a; reflexivity.
Qed.

(** ** Rows the server selects *)

Lemma length_apply_limit {A : Type} (offset row_count : nat) (rows : list A) :
  List.length (apply_limit (Some (offset, row_count)) rows) <= row_count.
Proof.
  unfold apply_limit. apply firstn_le_length.
Qed.

Lemma rows_between_empty (d : database) (v : ip_version) (lo hi : N) :
  (hi < lo)%N -> rows_between d v lo hi = [].
Proof.
  intros H. unfold rows_between.
  induction (addresses_of d v) as [| r rows IH]; simpl; [reflexivity |].
  rewrite IH.
  destruct (N.leb_spec lo (a_address r)); simpl; [| reflexivity].
  destruct (N.leb_spec (a_address r) hi); simpl; [lia | reflexivity].
Qed.

Lemma rows_between_same (d : database) (v : ip_version) (n : N) :
  rows_between d v n n = rows_equal d v n.
Proof.
  unfold rows_between, rows_equal. apply filter_ext. intros r.
  destruct (N.eqb_spec (a_address r) n) as [-> | Hne].
  - rewrite N.leb_refl. reflexivity.
  - destruct (N.leb_spec n (a_address r)); simpl; [| reflexivity].
    destruct (N.leb_spec (a_address r) n); [lia | reflexivity].
Qed.

Lemma run_range (d : database) (v : ip_version) (x y : ip_value) (lo hi : N)
    (limit : limit_spec) :
  literal_value x = Some lo -> literal_value y = Some hi ->
  run d (SelectAddressRange v x y limit)
  = Ok (map AddressRow (apply_limit limit (rows_between d v lo hi))).
Proof.
  intros Hx Hy. simpl. rewrite Hx, Hy. reflexivity.
Qed.

Lemma run_count_in_list (d : database) (l : list_name) (v : ip_version)
    (x : ip_value) (n k : N) :
  literal_value x = Some n -> list_count d l v n = Ok k ->
  run d (CountInList l v x) = Ok [CountRow k].
Proof.
  intros Hx Hk. simpl. rewrite Hx, Hk. reflexivity.
Qed.

Lemma run_count_address (d : database) (v : ip_version) (x : ip_value) (n : N) :
  literal_value x = Some n ->
  run d (CountAddress v x) = Ok [CountRow (address_count d v n)].
Proof.
  intros Hx. simpl. rewrite Hx. reflexivity.
Qed.

Lemma executed_app (t u : list event) :
  executed (t ++ u) = executed t ++ executed u.
Proof.
  induction t as [| e t IH]; simpl; [reflexivity |].
  destruct e; simpl; rewrite IH; reflexivity.
Qed.

(** ** What each operation returns and leaves behind *)

Ltac run_monad :=
  unfold bind, cursor, lift, execute, fetchall, fetchone, item0, close, ret,
    raise;
  cbn [db open_cursors result_set calls fst snd hd_error tl first_column
       Nat.pred].

Ltac flatten_calls := rewrite <- ?app_assoc; cbn [app].

Section Operations.

Variable IPAddress : string -> option IPAddr.

Lemma get_ip_data_valid (text : string) (ip : IPAddr) :
  IPAddress text = Some ip -> get_ip_data IPAddress text = Ok (ip_data ip).
Proof.
  intros H. unfold get_ip_data. rewrite H. reflexivity.
Qed.

Lemma find_ip_list_type_run (c : connection) (text : string) (ip : IPAddr)
    (wc bc : N) :
  IPAddress text = Some ip ->
  list_count (db c) Whitelist (version ip) (value ip) = Ok wc ->
  list_count (db c) Blacklist (version ip) (value ip) = Ok bc ->
  find_ip_list_type IPAddress text c
  = let t := calls c
             ++ [Cursor;
                 Execute (CountInList Whitelist (version ip) (fst (ip_data ip)));
                 Fetchone;
                 Execute (CountInList Blacklist (version ip) (fst (ip_data ip)));
                 Fetchone] in
    if N.eqb wc bc
    then (if N.ltb 0 wc then Err IntegrityViolationError else Ok None,
          {| db := db c; open_cursors := S (open_cursors c);
             result_set := []; calls := t |})
    else (Ok (Some (if N.ltb 0 wc then "whitelist" else "blacklist")),
          {| db := db c; open_cursors := open_cursors c;
             result_set := []; calls := t ++ [Close] |}).
Proof.
  intros Hip Hw Hb. unfold find_ip_list_type.
  rewrite (get_ip_data_valid _ _ Hip).
  destruct (ip_data ip) as [x v] eqn:E.
  apply ip_data_inv in E as [-> Hx].
  run_monad.
  rewrite (run_count_in_list _ _ _ _ _ _ Hx Hw). run_monad.
  rewrite (run_count_in_list _ _ _ _ _ _ Hx Hb). run_monad.
  destruct (N.eqb wc bc); [destruct (N.ltb 0 wc) |];
    run_monad; flatten_calls; reflexivity.
Qed.

Lemma get_ip_from_range_mismatch (c : connection) (start end_ : string)
    (a b : IPAddr) (limit : limit_spec) :
  IPAddress start = Some a -> IPAddress end_ = Some b ->
  version a <> version b ->
  get_ip_from_range IPAddress start end_ limit c
  = (Err VersionMismatchError,
     {| db := db c; open_cursors := S (open_cursors c);
        result_set := []; calls := calls c ++ [Cursor] |}).
Proof.
  intros Ha Hb Hv. unfold get_ip_from_range.
  rewrite (get_ip_data_valid _ _ Ha), (get_ip_data_valid _ _ Hb).
  unfold ip_data. run_monad.
  destruct (version_eqb (version a) (version b)) eqn:E.
  - apply version_eqb_eq in E. contradiction.
  - reflexivity.
Qed.

Lemma get_ip_from_range_run (c : connection) (start end_ : string)
    (a b : IPAddr) (limit : limit_spec) :
  IPAddress start = Some a -> IPAddress end_ = Some b ->
  version a = version b ->
  get_ip_from_range IPAddress start end_ limit c
  = (Ok (map AddressRow
           (apply_limit limit
              (rows_between (db c) (version a) (value a) (value b)))),
     {| db := db c; open_cursors := open_cursors c; result_set := [];
        calls := calls c
                 ++ [Cursor;
                     Execute (SelectAddressRange (version a) (fst (ip_data a))
                                (fst (ip_data b)) limit);
                     Fetchall; Close] |}).
Proof.
  intros Ha Hb Hv. unfold get_ip_from_range.
  rewrite (get_ip_data_valid _ _ Ha), (get_ip_data_valid _ _ Hb).
  destruct (ip_data a) as [x v] eqn:Ea. apply ip_data_inv in Ea as [-> Hx].
  destruct (ip_data b) as [y w] eqn:Eb. apply ip_data_inv in Eb as [-> Hy].
  run_monad. rewrite <- Hv, version_eqb_refl. cbn [negb]. run_monad.
  rewrite (run_range _ _ _ _ _ _ _ Hx Hy). run_monad.
  flatten_calls. reflexivity.
Qed.

Lemma run_by_source_plain (d : database) (v : ip_version)
    (sourcename : string) (limit : limit_spec) :
  plain_name sourcename = true ->
  run d (SelectBySource v sourcename limit)
  = Ok (map AddressRow (apply_limit limit (rows_by_source d v sourcename))).
Proof.
  intros H. cbn [run]. rewrite H. reflexivity.
Qed.

(** [get_ip_with_source_name] whatever the server answers: a statement the
    server refuses ends the call there, with the cursor open. *)
Lemma get_ip_with_source_name_outcome (c : connection) (sourcename : string)
    (limit : limit_spec) :
  get_ip_with_source_name sourcename limit c
  = match run (db c) (SelectBySource V4 sourcename limit),
          run (db c) (SelectBySource V6 sourcename limit) with
    | Ok r4, Ok r6 =>
        (Ok (r4 ++ r6),
         {| db := db c; open_cursors := open_cursors c; result_set := [];
            calls := calls c
                     ++ [Cursor;
                         Execute (SelectBySource V4 sourcename limit); Fetchall;
                         Execute (SelectBySource V6 sourcename limit); Fetchall;
                         Close] |})
    | Ok r4, Err e =>
        (Err e,
         {| db := db c; open_cursors := S (open_cursors c); result_set := [];
            calls := calls c
                     ++ [Cursor;
                         Execute (SelectBySource V4 sourcename limit); Fetchall;
                         Execute (SelectBySource V6 sourcename limit)] |})
    | Err e, _ =>
        (Err e,
         {| db := db c; open_cursors := S (open_cursors c); result_set := [];
            calls := calls c
                     ++ [Cursor;
                         Execute (SelectBySource V4 sourcename limit)] |})
    end.
Proof.
  unfold get_ip_with_source_name. run_monad.
  destruct (run (db c) (SelectBySource V4 sourcename limit)) as [r4 | e4];
    run_monad; [| flatten_calls; reflexivity].
  destruct (run (db c) (SelectBySource V6 sourcename limit)) as [r6 | e6];
    run_monad; flatten_calls; reflexivity.
Qed.

Lemma get_ip_with_source_name_run (c : connection) (sourcename : string)
    (limit : limit_spec) :
  plain_name sourcename = true ->
  get_ip_with_source_name sourcename limit c
  = (Ok (map AddressRow
           (apply_limit limit (rows_by_source (db c) V4 sourcename))
         ++ map AddressRow
              (apply_limit limit (rows_by_source (db c) V6 sourcename))),
     {| db := db c; open_cursors := open_cursors c; result_set := [];
        calls := calls c
                 ++ [Cursor;
                     Execute (SelectBySource V4 sourcename limit); Fetchall;
                     Execute (SelectBySource V6 sourcename limit); Fetchall;
                     Close] |}).
Proof.
  intros Hplain. rewrite get_ip_with_source_name_outcome.
  rewrite !(run_by_source_plain _ _ _ _ Hplain). reflexivity.
Qed.

Lemma get_ips_added_in_range_run (c : connection) (startdate enddate : datetime)
    (limit : limit_spec) :
  datetime_gt startdate enddate = false ->
  get_ips_added_in_range startdate enddate limit c
  = (Ok (map AddressRow
           (apply_limit limit
              (rows_added_between (db c) V4 (date startdate) (date enddate)))
         ++ map AddressRow
              (apply_limit limit
                 (rows_added_between (db c) V6 (date startdate) (date enddate)))),
     {| db := db c; open_cursors := open_cursors c; result_set := [];
        calls := calls c
                 ++ [Cursor;
                     Execute (SelectAddedBetween V4 (date startdate)
                                (date enddate) limit);
                     Fetchall;
                     Execute (SelectAddedBetween V6 (date startdate)
                                (date enddate) limit);
                     Fetchall; Close] |}).
Proof.
  intros H. unfold get_ips_added_in_range. rewrite H.
  run_monad. cbn [run]. run_monad. flatten_calls. reflexivity.
Qed.

Lemma get_ips_added_in_range_invalid (c : connection)
    (startdate enddate : datetime) (limit : limit_spec) :
  datetime_gt startdate enddate = true ->
  get_ips_added_in_range startdate enddate limit c = (Err InvalidRangeError, c).
Proof.
  intros H. unfold get_ips_added_in_range. rewrite H. reflexivity.
Qed.

Lemma get_sources_modified_in_range_run (c : connection)
    (startdate enddate : datetime) (limit : limit_spec) :
  get_sources_modified_in_range startdate enddate limit c
  = (Ok (map SourceRow
           (apply_limit limit
              (sources_modified_between (db c) (date startdate) (date enddate)))),
     {| db := db c; open_cursors := open_cursors c; result_set := [];
        calls := calls c
                 ++ [Cursor;
                     Execute (SelectSourcesModified (date startdate)
                                (date enddate) limit);
                     Fetchall; Close] |}).
Proof.
  unfold get_sources_modified_in_range. run_monad. cbn [run]. run_monad.
  flatten_calls. reflexivity.
Qed.

Lemma check_if_ip_in_database_run (c : connection) (text : string) (ip : IPAddr) :
  IPAddress text = Some ip ->
  check_if_ip_in_database IPAddress text c
  = (Ok (negb (N.eqb (address_count (db c) (version ip) (value ip)) 0)),
     {| db := db c; open_cursors := open_cursors c; result_set := [];
        calls := calls c
                 ++ [Cursor;
                     Execute (CountAddress (version ip) (fst (ip_data ip)));
                     Fetchone; Close] |}).
Proof.
  intros Hip. unfold check_if_ip_in_database.
  rewrite (get_ip_data_valid _ _ Hip).
  destruct (ip_data ip) as [x v] eqn:E. apply ip_data_inv in E as [-> Hx].
  run_monad. rewrite (run_count_address _ _ _ _ Hx). run_monad.
  flatten_calls.
  destruct (N.eqb (address_count (db c) (version ip) (value ip)) 0);
    reflexivity.
Qed.

End Operations.

Lemma apply_limit_nil {A : Type} (limit : limit_spec) :
  apply_limit limit (@nil A) = [].
Proof.
  destruct limit as [[offset row_count] |]; simpl; [| reflexivity].
  rewrite skipn_nil. apply firstn_nil.
Qed.

(** ** The decode step and the operations on one address *)

Section Addresses.

Variable IPAddress : string -> option IPAddr.

(** C10: for a valid IPv6 literal [get_ip_data] returns version 6 with the
    text [bin] prints for the address, a str that starts with "0b" and that
    denotes the address's number; for a valid IPv4 literal it returns
    version 4 with the number itself, an int.  The type of the first
    component depends on the version. *)
Theorem get_ip_data_value_by_version (text : string) (ip : IPAddr) :
  IPAddress text = Some ip ->
  (version ip = V6 ->
     get_ip_data IPAddress text = Ok (StrValue (bin (value ip)), V6)
     /\ (exists digits, bin (value ip) = ("0b" ++ digits)%string)
     /\ bit_literal (bin (value ip)) = Some (value ip))
  /\ (version ip = V4 ->
       get_ip_data IPAddress text = Ok (IntValue (value ip), V4)).
Proof.
  intros Hip. rewrite (get_ip_data_valid _ _ _ Hip). unfold ip_data.
  split; intros Hv; rewrite Hv; cbn [version_eqb].
  - split; [reflexivity |]. split; [apply bin_prefix | apply bit_literal_bin].
  - reflexivity.
Qed.

(** C1: for an address whose two count statements answer [wc] (whitelist)
    and [bc] (blacklist), [find_ip_list_type] raises the exception "Ip both
    in white and black lists" exactly when [wc = bc] and [wc > 0], and
    returns [None] exactly when [wc = bc] and [wc = 0]. *)
Theorem find_ip_list_type_equal_counts (c : connection) (text : string)
    (ip : IPAddr) (wc bc : N) :
  IPAddress text = Some ip ->
  list_count (db c) Whitelist (version ip) (value ip) = Ok wc ->
  list_count (db c) Blacklist (version ip) (value ip) = Ok bc ->
  (fst (find_ip_list_type IPAddress text c) = Err IntegrityViolationError
   <-> wc = bc /\ (0 < wc)%N)
  /\ (fst (find_ip_list_type IPAddress text c) = Ok None
      <-> wc = bc /\ wc = 0%N).
Proof.
  intros Hip Hw Hb. rewrite (find_ip_list_type_run _ _ _ _ _ _ Hip Hw Hb).
  cbv zeta.
  destruct (N.eqb_spec wc bc) as [Heq | Hne];
    [destruct (N.ltb_spec 0 wc) as [Hpos | Hzero] |]; cbn [fst].
  - split; split; intros H; try discriminate; try (split; assumption);
      try reflexivity.
    destruct H as [_ H]. lia.
  - split; split; intros H; try discriminate; try reflexivity.
    + destruct H as [_ H]. lia.
    + split; [assumption | lia].
  - split; split; intros H; try discriminate; destruct H as [H _];
      contradiction.
Qed.

(** C2, amended: when the two counts differ, [find_ip_list_type] returns
    "whitelist" if the whitelist count is greater than zero and "blacklist"
    otherwise; so when one of the two counts is zero it returns the list
    with the nonzero count, which is then the list with the larger count. *)
Theorem find_ip_list_type_differing_counts (c : connection) (text : string)
    (ip : IPAddr) (wc bc : N) :
  IPAddress text = Some ip ->
  list_count (db c) Whitelist (version ip) (value ip) = Ok wc ->
  list_count (db c) Blacklist (version ip) (value ip) = Ok bc ->
  wc <> bc ->
  fst (find_ip_list_type IPAddress text c)
  = Ok (Some (if N.ltb 0 wc then "whitelist" else "blacklist"))
  /\ (wc = 0%N \/ bc = 0%N ->
      fst (find_ip_list_type IPAddress text c)
      = Ok (Some (larger_count_list wc bc))).
Proof.
  intros Hip Hw Hb Hne. rewrite (find_ip_list_type_run _ _ _ _ _ _ Hip Hw Hb).
  cbv zeta. destruct (N.eqb_spec wc bc) as [Heq | _]; [contradiction |].
  cbn [fst]. split; [reflexivity |].
  intros Hzero. unfold larger_count_list.
  destruct (N.ltb_spec 0 wc), (N.ltb_spec wc bc); try reflexivity; lia.
Qed.

(** C5: when the two literals are valid and of different versions,
    [get_ip_from_range] raises "Different ip versions in start and end"
    and has executed no statement: the only call made is the one that
    obtains the cursor. *)
Theorem get_ip_from_range_version_mismatch (c : connection)
    (start end_ : string) (a b : IPAddr) (limit : limit_spec) :
  IPAddress start = Some a -> IPAddress end_ = Some b ->
  version a <> version b ->
  fst (get_ip_from_range IPAddress start end_ limit c)
  = Err VersionMismatchError
  /\ calls (snd (get_ip_from_range IPAddress start end_ limit c))
     = calls c ++ [Cursor]
  /\ executed (calls (snd (get_ip_from_range IPAddress start end_ limit c)))
     = executed (calls c).
Proof.
  intros Ha Hb Hv. rewrite (get_ip_from_range_mismatch _ _ _ _ _ _ _ Ha Hb Hv).
  cbn [fst snd calls]. split; [reflexivity |]. split; [reflexivity |].
  rewrite executed_app. cbn [executed]. apply app_nil_r.
Qed.

(** C6: for endpoints of the same version, [get_ip_from_range] executes
    one statement, [BETWEEN <start> AND <end>] with the two numbers in the
    order of the arguments, and returns its rows; when the number of
    [start] exceeds the number of [end] the call succeeds with no row. *)
Theorem get_ip_from_range_bounds_as_given (c : connection)
    (start end_ : string) (a b : IPAddr) (limit : limit_spec) :
  IPAddress start = Some a -> IPAddress end_ = Some b ->
  version a = version b ->
  executed (calls (snd (get_ip_from_range IPAddress start end_ limit c)))
  = executed (calls c)
    ++ [SelectAddressRange (version a) (fst (ip_data a)) (fst (ip_data b)) limit]
  /\ literal_value (fst (ip_data a)) = Some (value a)
  /\ literal_value (fst (ip_data b)) = Some (value b)
  /\ fst (get_ip_from_range IPAddress start end_ limit c)
     = Ok (map AddressRow
             (apply_limit limit
                (rows_between (db c) (version a) (value a) (value b))))
  /\ ((value b < value a)%N ->
      fst (get_ip_from_range IPAddress start end_ limit c) = Ok []).
Proof.
  intros Ha Hb Hv. rewrite (get_ip_from_range_run _ _ _ _ _ _ _ Ha Hb Hv).
  cbn [fst snd calls].
  split; [rewrite executed_app; reflexivity |].
  split; [apply (ip_data_inv a _ (snd (ip_data a))), surjective_pairing |].
  split; [apply (ip_data_inv b _ (snd (ip_data b))), surjective_pairing |].
  split; [reflexivity |].
  intros Hgt. rewrite rows_between_empty by assumption.
  rewrite apply_limit_nil. reflexivity.
Qed.

(** C9: for a valid literal, [check_if_ip_in_database] returns a boolean
    that is true exactly when the count of the rows with that address is
    greater than zero, and exactly when [get_ip_from_range] from the
    address to itself, on the same connection, returns at least one row. *)
Theorem check_if_ip_in_database_iff_in_range (c : connection) (text : string)
    (ip : IPAddr) :
  IPAddress text = Some ip ->
  exists (found : bool) (rows : list row),
    fst (check_if_ip_in_database IPAddress text c) = Ok found
    /\ fst (get_ip_from_range IPAddress text text None c) = Ok rows
    /\ (found = true
        <-> (0 < address_count (db c) (version ip) (value ip))%N)
    /\ (found = true <-> rows <> []).
Proof.
  intros Hip.
  rewrite (check_if_ip_in_database_run _ _ _ _ Hip).
  rewrite (get_ip_from_range_run _ _ _ _ _ _ _ Hip Hip eq_refl).
  cbn [fst]. eexists. eexists.
  split; [reflexivity |]. split; [reflexivity |].
  rewrite rows_between_same. unfold address_count, apply_limit.
  destruct (rows_equal (db c) (version ip) (value ip)) as [| r rows];
    simpl.
  - split; split; intros H; try discriminate; try lia.
    exfalso. apply H. reflexivity.
  - split; split; intros H; try reflexivity; try discriminate.
Qed.

End Addresses.

(** ** The operations that run a statement per version *)



(** ** Date windows and cursors *)

(** [get_sources_modified_in_range] never compares its dates: whatever they
    are it executes its one statement and returns the rows. *)
Lemma get_sources_modified_in_range_always_runs (c : connection)
    (startdate enddate : datetime) (limit : limit_spec) :
  exists rows : list row,
    fst (get_sources_modified_in_range startdate enddate limit c) = Ok rows
    /\ executed
         (calls (snd (get_sources_modified_in_range startdate enddate limit c)))
       = executed (calls c)
         ++ [SelectSourcesModified (date startdate) (date enddate) limit].
Proof.
  rewrite get_sources_modified_in_range_run. cbn [fst snd calls].
  eexists. split; [reflexivity |]. rewrite executed_app. reflexivity.
Qed.

(** X13: with equal counts [find_ip_list_type] ends, by [raise] or by
    [return None], with one more open cursor than it started with; with
    counts that differ the number is unchanged. *)
Lemma find_ip_list_type_open_cursors (IPAddress : string -> option IPAddr)
    (c : connection) (text : string) (ip : IPAddr) (wc bc : N) :
  IPAddress text = Some ip ->
  list_count (db c) Whitelist (version ip) (value ip) = Ok wc ->
  list_count (db c) Blacklist (version ip) (value ip) = Ok bc ->
  open_cursors (snd (find_ip_list_type IPAddress text c))
  = if N.eqb wc bc then S (open_cursors c) else open_cursors c.
Proof.
  intros Hip Hw Hb. rewrite (find_ip_list_type_run _ _ _ _ _ _ Hip Hw Hb).
  cbv zeta. destruct (N.eqb wc bc); reflexivity.
Qed.

(** A version mismatch leaves the cursor of [get_ip_from_range] open. *)
Lemma get_ip_from_range_mismatch_open_cursors
    (IPAddress : string -> option IPAddr) (c : connection)
    (start end_ : string) (a b : IPAddr) (limit : limit_spec) :
  IPAddress start = Some a -> IPAddress end_ = Some b ->
  version a <> version b ->
  open_cursors (snd (get_ip_from_range IPAddress start end_ limit c))
  = S (open_cursors c).
Proof.
  intros Ha Hb Hv. rewrite (get_ip_from_range_mismatch _ _ _ _ _ _ _ Ha Hb Hv).
  reflexivity.
Qed.

(** C3: [get_sources_modified_in_range] with a start date after the end
    date raises nothing: it executes its statement and returns the rows
    (none here), where [get_ips_added_in_range] on the same dates raises
    "End date is before start date" before any call on the connection. *)
Theorem get_sources_modified_in_range_reversed_dates :
  datetime_gt (day 737020) (day 737000) = true
  /\ get_sources_modified_in_range (day 737020) (day 737000) None
       (connect sample_database)
     = (Ok [],
        {| db := sample_database; open_cursors := 0; result_set := [];
           calls := [Cursor;
                     Execute (SelectSourcesModified 737020 737000 None);
                     Fetchall; Close] |})
  /\ get_ips_added_in_range (day 737020) (day 737000) None
       (connect sample_database)
     = (Err InvalidRangeError, connect sample_database).
Proof.
  split; [| split]; vm_compute; reflexivity.
Qed.

(** C4: three calls on a connection with no open cursor that end with the
    cursor they obtained still open: [find_ip_list_type] returning [None]
    (10.0.0.9 is in neither list), [find_ip_list_type] raising for ::1
    (once in each list), and [get_ip_from_range] raising for endpoints of
    different versions.  The call that returns a list name closes it. *)
Theorem cursor_left_open_on_early_exits :
  (fst (find_ip_list_type sample_IPAddress "10.0.0.9" (connect sample_database))
   = Ok None
   /\ open_cursors
        (snd (find_ip_list_type sample_IPAddress "10.0.0.9"
                (connect sample_database))) = 1
   /\ ~ In Close
        (calls (snd (find_ip_list_type sample_IPAddress "10.0.0.9"
                       (connect sample_database)))))
  /\ (fst (find_ip_list_type sample_IPAddress "::1"
             (connect conflicting_database))
      = Err IntegrityViolationError
      /\ open_cursors
           (snd (find_ip_list_type sample_IPAddress "::1"
                   (connect conflicting_database))) = 1)
  /\ (fst (get_ip_from_range sample_IPAddress "10.0.0.5" "::1" None
             (connect sample_database))
      = Err VersionMismatchError
      /\ open_cursors
           (snd (get_ip_from_range sample_IPAddress "10.0.0.5" "::1" None
                   (connect sample_database))) = 1)
  /\ (fst (find_ip_list_type sample_IPAddress "10.0.0.5"
             (connect sample_database))
      = Ok (Some "whitelist")
      /\ open_cursors
           (snd (find_ip_list_type sample_IPAddress "10.0.0.5"
                   (connect sample_database))) = 0).
Proof.
  repeat split; try (vm_compute; reflexivity).
  vm_compute. intros H.
  repeat (destruct H as [H | H]; [discriminate H |]). exact H.
Qed.

(** ** The theorems at concrete inputs *)

Lemma get_ip_data_value_by_version_witness :
  get_ip_data sample_IPAddress "::ff" = Ok (StrValue "0b11111111", V6)
  /\ get_ip_data sample_IPAddress "10.0.0.5" = Ok (IntValue 167772165, V4).
Proof.
  split.
  - exact (proj1 (proj1 (get_ip_data_value_by_version sample_IPAddress "::ff"
                           {| version := V6; value := 255 |} eq_refl)
                    eq_refl)).
  - exact (proj2 (get_ip_data_value_by_version sample_IPAddress "10.0.0.5"
                    {| version := V4; value := 167772165 |} eq_refl)
             eq_refl).
Defined.

Lemma find_ip_list_type_equal_counts_witness :
  fst (find_ip_list_type sample_IPAddress "::1" (connect conflicting_database))
  = Err IntegrityViolationError
  /\ fst (find_ip_list_type sample_IPAddress "10.0.0.9"
            (connect sample_database))
     = Ok None.
Proof.
  split.
  - apply (proj1 (find_ip_list_type_equal_counts sample_IPAddress
                    (connect conflicting_database) "::1"
                    {| version := V6; value := 1 |} 1 1
                    eq_refl eq_refl eq_refl)).
    split; [reflexivity | lia].
  - apply (proj2 (find_ip_list_type_equal_counts sample_IPAddress
                    (connect sample_database) "10.0.0.9"
                    {| version := V4; value := 167772169 |} 0 0
                    eq_refl eq_refl eq_refl)).
    split; reflexivity.
Defined.

Lemma find_ip_list_type_differing_counts_witness :
  fst (find_ip_list_type sample_IPAddress "10.0.0.5" (connect sample_database))
  = Ok (Some "whitelist").
Proof.
  apply (proj2 (find_ip_list_type_differing_counts sample_IPAddress
                  (connect sample_database) "10.0.0.5"
                  {| version := V4; value := 167772165 |} 1 0
                  eq_refl eq_refl eq_refl ltac:(discriminate))).
  right. reflexivity.
Defined.

(** C2 as the specification states it fails for 10.0.0.5 once in the
    whitelist and twice in the blacklist: the counts are 1 and 2, the list
    with the larger count is the blacklist, and "whitelist" is returned. *)
Lemma find_ip_list_type_larger_count_counterexample :
  list_count conflicting_database Whitelist V4 167772165 = Ok 1%N
  /\ list_count conflicting_database Blacklist V4 167772165 = Ok 2%N
  /\ larger_count_list 1 2 = "blacklist"
  /\ fst (find_ip_list_type sample_IPAddress "10.0.0.5"
            (connect conflicting_database))
     = Ok (Some "whitelist")
  /\ fst (find_ip_list_type sample_IPAddress "10.0.0.5"
            (connect conflicting_database))
     <> Ok (Some (larger_count_list 1 2)).
Proof.
  repeat split; try (vm_compute; reflexivity).
  vm_compute. discriminate.
Qed.

Lemma get_ip_from_range_version_mismatch_witness :
  fst (get_ip_from_range sample_IPAddress "10.0.0.5" "::1" (Some (0, 10))
         (connect sample_database))
  = Err VersionMismatchError
  /\ executed
       (calls (snd (get_ip_from_range sample_IPAddress "10.0.0.5" "::1"
                      (Some (0, 10)) (connect sample_database))))
     = [].
Proof.
  pose proof (get_ip_from_range_version_mismatch sample_IPAddress
                (connect sample_database) "10.0.0.5" "::1"
                {| version := V4; value := 167772165 |}
                {| version := V6; value := 1 |} (Some (0, 10))
                eq_refl eq_refl ltac:(discriminate)) as (Hr & _ & He).
  split; [exact Hr | exact He].
Defined.

Lemma get_ip_from_range_bounds_as_given_witness :
  executed
    (calls (snd (get_ip_from_range sample_IPAddress "::ff" "::1" None
                   (connect sample_database))))
  = [SelectAddressRange V6 (StrValue "0b11111111") (StrValue "0b1") None]
  /\ fst (get_ip_from_range sample_IPAddress "::ff" "::1" None
            (connect sample_database))
     = Ok [].
Proof.
  pose proof (get_ip_from_range_bounds_as_given sample_IPAddress
                (connect sample_database) "::ff" "::1"
                {| version := V6; value := 255 |}
                {| version := V6; value := 1 |} None
                eq_refl eq_refl eq_refl) as (He & _ & _ & _ & Hempty).
  split; [exact He | apply Hempty; reflexivity].
Defined.

Lemma check_if_ip_in_database_iff_in_range_witness :
  exists (found : bool) (rows : list row),
    fst (check_if_ip_in_database sample_IPAddress "::ff"
           (connect sample_database)) = Ok found
    /\ fst (get_ip_from_range sample_IPAddress "::ff" "::ff" None
              (connect sample_database)) = Ok rows
    /\ (found = true
        <-> (0 < address_count sample_database V6 255)%N)
    /\ (found = true <-> rows <> []).
Proof.
  exact (check_if_ip_in_database_iff_in_range sample_IPAddress
           (connect sample_database) "::ff"
           {| version := V6; value := 255 |} eq_refl).
Defined.



(** * Further properties of the operations *)

(** ** Rows and pages *)

Lemma in_apply_limit {A : Type} (limit : limit_spec) (rows : list A) (x : A) :
  In x (apply_limit limit rows) -> In x rows.
Proof.
  destruct limit as [[offset row_count] |]; simpl; [| trivial].
  intros H.
  rewrite <- (firstn_skipn offset rows). apply in_or_app. right.
  rewrite <- (firstn_skipn row_count (skipn offset rows)).
  apply in_or_app. left. exact H.
Qed.

Lemma in_map_AddressRow (r : address_row) (rows : list address_row) :
  In (AddressRow r) (map AddressRow rows) <-> In r rows.
Proof.
  rewrite in_map_iff. split.
  - intros (x & E & H). inversion E; subst. exact H.
  - intros H. exists r. split; [reflexivity | exact H].
Qed.

Lemma in_map_SourceRow (s : source_row) (rows : list source_row) :
  In (SourceRow s) (map SourceRow rows) <-> In s rows.
Proof.
  rewrite in_map_iff. split.
  - intros (x & E & H). inversion E; subst. exact H.
  - intros H. exists s. split; [reflexivity | exact H].
Qed.

Lemma is_id_true (i : N) (o : option N) : is_id i o = true <-> o = Some i.
Proof.
  destruct o as [j |]; simpl.
  - rewrite N.eqb_eq. split; [intros -> | intros E; inversion E]; reflexivity.
  - split; discriminate.
Qed.

Lemma rows_by_source_In (d : database) (v : ip_version) (sourcename : string)
    (r : address_row) :
  In r (rows_by_source d v sourcename)
  <-> In r (addresses_of d v) /\ linked_to_source d v sourcename r.
Proof.
  unfold rows_by_source, source_address_ids, linked_to_source.
  rewrite filter_In, existsb_exists.
  split.
  - intros (Hr & o & Ho & Hid). split; [exact Hr |].
    apply is_id_true in Hid. subst o.
    apply in_map_iff in Ho as (k & Hk & Hin).
    apply filter_In in Hin as (Hin & Hs).
    apply existsb_exists in Hs as (s & Hs & Hm).
    apply andb_true_iff in Hm as (H1 & H2).
    apply N.eqb_eq in H1.
    exists k, s. repeat split; assumption.
  - intros (Hr & k & s & Hk & Hs & H1 & H2 & Hid). split; [exact Hr |].
    exists (link_id v k). split; [| apply is_id_true; exact Hid].
    apply in_map_iff. exists k. split; [reflexivity |].
    apply filter_In. split; [exact Hk |].
    apply existsb_exists. exists s. split; [exact Hs |].
    apply andb_true_iff. split; [apply N.eqb_eq |]; assumption.
Qed.

Lemma rows_between_In (d : database) (v : ip_version) (lo hi : N)
    (r : address_row) :
  In r (rows_between d v lo hi)
  <-> In r (addresses_of d v) /\ (lo <= a_address r <= hi)%N.
Proof.
  unfold rows_between. rewrite filter_In, andb_true_iff, !N.leb_le.
  reflexivity.
Qed.

Lemma rows_added_between_In (d : database) (v : ip_version) (d1 d2 : Z)
    (r : address_row) :
  In r (rows_added_between d v d1 d2)
  <-> In r (addresses_of d v) /\ (d1 <= a_date_added r <= d2)%Z.
Proof.
  unfold rows_added_between. rewrite filter_In, andb_true_iff, !Z.leb_le.
  reflexivity.
Qed.

Lemma sources_modified_between_In (d : database) (d1 d2 : Z) (s : source_row) :
  In s (sources_modified_between d d1 d2)
  <-> In s (sources d) /\ (d1 <= s_url_date_modified s <= d2)%Z.
Proof.
  unfold sources_modified_between.
  rewrite filter_In, andb_true_iff, !Z.leb_le. reflexivity.
Qed.

Lemma rows_equal_nil_list_count (d : database) (l : list_name)
    (v : ip_version) (n : N) :
  address_count d v n = 0%N -> list_count d l v n = Ok 0%N.
Proof.
  unfold address_count, list_count.
  destruct (rows_equal d v n) as [| r rows]; [reflexivity |].
  simpl. discriminate.
Qed.

(** ** Addresses that netaddr refuses, and cursors *)

Section MoreAddresses.

Variable IPAddress : string -> option IPAddr.

(** X1: a literal netaddr refuses makes each address operation end with
    [AddrFormatError] before any statement is executed, whichever argument
    it is.  [get_ip_from_range] and [find_ip_list_type] have obtained their
    cursor by then and leave it open; [check_if_ip_in_database] decodes
    first and has not touched the connection. *)
Theorem invalid_literal_raises_before_execute (c : connection)
    (text : string) :
  IPAddress text = None ->
  (forall (other : string) (limit : limit_spec),
      get_ip_from_range IPAddress text other limit c
      = (Err AddrFormatError,
         {| db := db c; open_cursors := S (open_cursors c);
            result_set := []; calls := calls c ++ [Cursor] |})
      /\ get_ip_from_range IPAddress other text limit c
         = (Err AddrFormatError,
            {| db := db c; open_cursors := S (open_cursors c);
               result_set := []; calls := calls c ++ [Cursor] |}))
  /\ find_ip_list_type IPAddress text c
     = (Err AddrFormatError,
        {| db := db c; open_cursors := S (open_cursors c);
           result_set := []; calls := calls c ++ [Cursor] |})
  /\ check_if_ip_in_database IPAddress text c = (Err AddrFormatError, c).
Proof.
  intros Hbad. split; [| split].
  - intros other limit. split.
    + unfold get_ip_from_range, get_ip_data. rewrite Hbad. reflexivity.
    + unfold get_ip_from_range, get_ip_data. rewrite Hbad.
      destruct (IPAddress other) as [ip |]; [| reflexivity].
      destruct (ip_data ip) as [x v]. reflexivity.
  - unfold find_ip_list_type, get_ip_data. rewrite Hbad. reflexivity.
  - unfold check_if_ip_in_database, get_ip_data. rewrite Hbad. reflexivity.
Qed.

(** X2: [get_ips_added_in_range] (also when it raises, since it compares
    the dates before it asks for a cursor),
    [get_sources_modified_in_range] and [check_if_ip_in_database] (also
    for a literal netaddr refuses) end with as many open cursors as they
    started with, whatever their arguments.  [get_ip_with_source_name]
    does when the server answers both of its statements, as it does for a
    source name with no double quote and no backslash; when the server
    refuses one of the two, the call ends with that error and with one
    more open cursor, and a refused version 4 statement is the last one
    executed. *)
Theorem operations_that_close_their_cursor (c : connection)
    (sourcename text : string) (startdate enddate : datetime)
    (limit : limit_spec) :
  (plain_name sourcename = true ->
   open_cursors (snd (get_ip_with_source_name sourcename limit c))
   = open_cursors c)
  /\ (forall r4 r6 : list row,
         run (db c) (SelectBySource V4 sourcename limit) = Ok r4 ->
         run (db c) (SelectBySource V6 sourcename limit) = Ok r6 ->
         open_cursors (snd (get_ip_with_source_name sourcename limit c))
         = open_cursors c)
  /\ (forall e : error,
         run (db c) (SelectBySource V4 sourcename limit) = Err e ->
         fst (get_ip_with_source_name sourcename limit c) = Err e
         /\ open_cursors (snd (get_ip_with_source_name sourcename limit c))
            = S (open_cursors c)
         /\ executed (calls (snd (get_ip_with_source_name sourcename limit c)))
            = executed (calls c) ++ [SelectBySource V4 sourcename limit])
  /\ (forall (r4 : list row) (e : error),
         run (db c) (SelectBySource V4 sourcename limit) = Ok r4 ->
         run (db c) (SelectBySource V6 sourcename limit) = Err e ->
         fst (get_ip_with_source_name sourcename limit c) = Err e
         /\ open_cursors (snd (get_ip_with_source_name sourcename limit c))
            = S (open_cursors c))
  /\ open_cursors (snd (get_ips_added_in_range startdate enddate limit c))
     = open_cursors c
  /\ open_cursors (snd (get_sources_modified_in_range startdate enddate limit c))
     = open_cursors c
  /\ open_cursors (snd (check_if_ip_in_database IPAddress text c))
     = open_cursors c.
Proof.
  repeat match goal with |- _ /\ _ => split end.
  - intros Hplain. rewrite (get_ip_with_source_name_run _ _ _ Hplain).
    reflexivity.
  - intros r4 r6 H4 H6. rewrite get_ip_with_source_name_outcome, H4, H6.
    reflexivity.
  - intros e H4. rewrite get_ip_with_source_name_outcome, H4.
    cbn [fst snd open_cursors calls].
    split; [reflexivity |]. split; [reflexivity |].
    rewrite executed_app. reflexivity.
  - intros r4 e H4 H6. rewrite get_ip_with_source_name_outcome, H4, H6.
    split; reflexivity.
  - destruct (datetime_gt startdate enddate) eqn:E.
    + rewrite (get_ips_added_in_range_invalid _ _ _ _ E). reflexivity.
    + rewrite (get_ips_added_in_range_run _ _ _ _ E). reflexivity.
  - rewrite get_sources_modified_in_range_run. reflexivity.
  - destruct (IPAddress text) as [ip |] eqn:E.
    + rewrite (check_if_ip_in_database_run _ _ _ _ E). reflexivity.
    + unfold check_if_ip_in_database, get_ip_data. rewrite E. reflexivity.
Qed.

(** X3: when [check_if_ip_in_database] answers [False] for an address,
    [find_ip_list_type] called next on the same connection returns [None]:
    an address with no row has no list. *)
Theorem absent_address_has_no_list (c : connection) (text : string)
    (ip : IPAddr) :
  IPAddress text = Some ip ->
  fst (check_if_ip_in_database IPAddress text c) = Ok false ->
  fst (find_ip_list_type IPAddress text
         (snd (check_if_ip_in_database IPAddress text c)))
  = Ok None.
Proof.
  intros Hip. rewrite (check_if_ip_in_database_run _ _ _ _ Hip).
  cbn [fst snd]. intros Hfound.
  assert (Hcount : address_count (db c) (version ip) (value ip) = 0%N).
  { destruct (N.eqb_spec (address_count (db c) (version ip) (value ip)) 0)
      as [E | _]; [exact E | discriminate]. }
  match goal with
  | |- fst (find_ip_list_type _ _ ?c') = _ =>
      rewrite (find_ip_list_type_run IPAddress c' text ip 0 0 Hip
                 (rows_equal_nil_list_count (db c) Whitelist _ _ Hcount)
                 (rows_equal_nil_list_count (db c) Blacklist _ _ Hcount))
  end.
  reflexivity.
Qed.

(** X4: two valid literals for which [get_ip_data] returns the same pair
    denote the same address: the version and the number are recovered from
    the pair, also from the text of [bin]. *)
Theorem get_ip_data_injective (text1 text2 : string) (ip1 ip2 : IPAddr) :
  IPAddress text1 = Some ip1 -> IPAddress text2 = Some ip2 ->
  get_ip_data IPAddress text1 = get_ip_data IPAddress text2 ->
  ip1 = ip2.
Proof.
  intros H1 H2.
  rewrite (get_ip_data_valid _ _ _ H1), (get_ip_data_valid _ _ _ H2).
  intros E. assert (E' : ip_data ip1 = ip_data ip2) by congruence.
  destruct (ip_data_inv ip1 _ _ (surjective_pairing _)) as [Hv1 Hx1].
  destruct (ip_data_inv ip2 _ _ (surjective_pairing _)) as [Hv2 Hx2].
  rewrite E' in Hv1, Hx1. rewrite Hv2 in Hv1. rewrite Hx2 in Hx1.
  injection Hx1 as Hval.
  destruct ip1 as [v1 n1], ip2 as [v2 n2]. simpl in *. subst. reflexivity.
Qed.

(** X5: [find_ip_list_type] returns "blacklist" exactly when the
    whitelist count is zero and the blacklist count is not, and
    "whitelist" exactly when the whitelist count is greater than zero and
    differs from the blacklist count. *)
Theorem find_ip_list_type_names (c : connection) (text : string)
    (ip : IPAddr) (wc bc : N) :
  IPAddress text = Some ip ->
  list_count (db c) Whitelist (version ip) (value ip) = Ok wc ->
  list_count (db c) Blacklist (version ip) (value ip) = Ok bc ->
  (fst (find_ip_list_type IPAddress text c) = Ok (Some "blacklist")
   <-> wc = 0%N /\ bc <> 0%N)
  /\ (fst (find_ip_list_type IPAddress text c) = Ok (Some "whitelist")
      <-> (0 < wc)%N /\ wc <> bc).
Proof.
  intros Hip Hw Hb. rewrite (find_ip_list_type_run _ _ _ _ _ _ Hip Hw Hb).
  cbv zeta.
  destruct (N.eqb_spec wc bc) as [Heq | Hne];
    destruct (N.ltb_spec 0 wc) as [Hpos | Hzero]; cbn [fst];
    (split; split; intros H; try discriminate; try reflexivity;
     try (destruct H; lia); try (split; [lia | congruence]);
     try (split; congruence)).
Qed.

End MoreAddresses.

(** ** Which rows the operations return *)

(** X6: for a source name with no double quote and no backslash, and
    without a limit, [get_ip_with_source_name] returns exactly the address
    rows linked to a source whose name equals it for the server (under the
    collation of [source_name]): the rows of [ipv4_addresses] whose id is a
    [v4_id] of such a link, and the rows of [ipv6_addresses] whose id is a
    [v6_id] of one. *)
Theorem get_ip_with_source_name_rows (c : connection) (sourcename : string) :
  plain_name sourcename = true ->
  exists rows : list row,
    fst (get_ip_with_source_name sourcename None c) = Ok rows
    /\ (forall r : address_row,
           In (AddressRow r) rows
           <-> (In r (ipv4_addresses (db c))
                /\ linked_to_source (db c) V4 sourcename r)
               \/ (In r (ipv6_addresses (db c))
                   /\ linked_to_source (db c) V6 sourcename r))
    /\ (forall x : row, In x rows -> exists r, x = AddressRow r).
Proof.
  intros Hplain. rewrite (get_ip_with_source_name_run _ _ _ Hplain).
  cbn [fst apply_limit].
  eexists. split; [reflexivity |]. split.
  - intros r. rewrite in_app_iff, !in_map_AddressRow, !rows_by_source_In.
    reflexivity.
  - intros x Hx. apply in_app_iff in Hx as [Hx | Hx];
      apply in_map_iff in Hx as (r & <- & _); eauto.
Qed.

(** X7: for a name with no double quote and no backslash that equals the
    name of no row of [sources] for the server (under the collation of
    [source_name]), [get_ip_with_source_name] returns no row, with or
    without a limit, and still executes both statements. *)
Theorem get_ip_with_source_name_unknown_source (c : connection)
    (sourcename : string) (limit : limit_spec) :
  plain_name sourcename = true ->
  (forall s : source_row,
      In s (sources (db c)) ->
      source_name_eq (db c) (s_source_name s) sourcename = false) ->
  fst (get_ip_with_source_name sourcename limit c) = Ok []
  /\ executed (calls (snd (get_ip_with_source_name sourcename limit c)))
     = executed (calls c)
       ++ [SelectBySource V4 sourcename limit;
           SelectBySource V6 sourcename limit].
Proof.
  intros Hplain Hnone. rewrite (get_ip_with_source_name_run _ _ _ Hplain).
  cbn [fst snd calls].
  split; [| rewrite executed_app; reflexivity].
  assert (Hempty : forall v, rows_by_source (db c) v sourcename = []).
  { intros v. destruct (rows_by_source (db c) v sourcename) as [| r rows] eqn:E;
      [reflexivity |].
    assert (Hr : In r (rows_by_source (db c) v sourcename))
      by (rewrite E; left; reflexivity).
    apply rows_by_source_In in Hr as (_ & k & s & _ & Hs & _ & Hname & _).
    rewrite (Hnone s Hs) in Hname. discriminate. }
  rewrite !Hempty, apply_limit_nil. reflexivity.
Qed.

(** X9: when [get_ips_added_in_range] does not raise, every row it returns
    is a row of [ipv4_addresses] or of [ipv6_addresses] whose [date_added]
    lies between the day of [startdate] and the day of [enddate], both
    included; without a limit every such row is returned. *)
Theorem get_ips_added_in_range_rows (c : connection)
    (startdate enddate : datetime) (limit : limit_spec) :
  datetime_gt startdate enddate = false ->
  exists rows : list row,
    fst (get_ips_added_in_range startdate enddate limit c) = Ok rows
    /\ (forall r : address_row,
           In (AddressRow r) rows ->
           (In r (ipv4_addresses (db c)) \/ In r (ipv6_addresses (db c)))
           /\ (date startdate <= a_date_added r <= date enddate)%Z)
    /\ (limit = None ->
        forall r : address_row,
          (In r (ipv4_addresses (db c)) \/ In r (ipv6_addresses (db c))) ->
          (date startdate <= a_date_added r <= date enddate)%Z ->
          In (AddressRow r) rows).
Proof.
  intros Hdates. rewrite (get_ips_added_in_range_run _ _ _ _ Hdates).
  cbn [fst]. eexists. split; [reflexivity |]. split.
  - intros r Hr. apply in_app_iff in Hr as [Hr | Hr];
      apply in_map_AddressRow, in_apply_limit, rows_added_between_In in Hr
        as [Hin Hd];
      (split; [| exact Hd]); [left | right]; exact Hin.
  - intros -> r Hin Hd. cbn [apply_limit].
    rewrite in_app_iff, !in_map_AddressRow, !rows_added_between_In.
    destruct Hin as [Hin | Hin]; [left | right]; split; assumption.
Qed.

(** X10: [get_sources_modified_in_range] returns rows of [sources] whose
    [url_date_modified] lies between the two days, both included; without
    a limit it returns all of them; with a limit it returns at most
    [row_count] rows in all; and when the day of [enddate] is before the
    day of [startdate] it returns no row. *)
Theorem get_sources_modified_in_range_rows (c : connection)
    (startdate enddate : datetime) (limit : limit_spec) :
  exists rows : list row,
    fst (get_sources_modified_in_range startdate enddate limit c) = Ok rows
    /\ (forall s : source_row,
           In (SourceRow s) rows ->
           In s (sources (db c))
           /\ (date startdate <= s_url_date_modified s <= date enddate)%Z)
    /\ (limit = None ->
        forall s : source_row,
          In s (sources (db c)) ->
          (date startdate <= s_url_date_modified s <= date enddate)%Z ->
          In (SourceRow s) rows)
    /\ (forall offset row_count : nat,
           limit = Some (offset, row_count) -> List.length rows <= row_count)
    /\ ((date enddate < date startdate)%Z -> rows = []).
Proof.
  rewrite get_sources_modified_in_range_run. cbn [fst].
  eexists. split; [reflexivity |]. split; [| split; [| split]].
  - intros s Hs.
    apply in_map_SourceRow, in_apply_limit, sources_modified_between_In in Hs.
    exact Hs.
  - intros -> s Hin Hd. cbn [apply_limit].
    apply in_map_SourceRow, sources_modified_between_In. split; assumption.
  - intros offset row_count ->. rewrite length_map. apply length_apply_limit.
  - intros Hrev.
    destruct (sources_modified_between (db c) (date startdate) (date enddate))
      as [| s rows] eqn:E.
    + rewrite apply_limit_nil. reflexivity.
    + assert (Hs : In s (sources_modified_between (db c) (date startdate)
                            (date enddate)))
        by (rewrite E; left; reflexivity).
      apply sources_modified_between_In in Hs as [_ Hd]. lia.
Qed.

Section RangeRows.

Variable IPAddress : string -> option IPAddr.

(** X11: for two valid literals of one version, every row
    [get_ip_from_range] returns is a row of that version's table whose
    address lies between the number of [start] and the number of [end],
    both included; without a limit every such row is returned; with a
    limit at most [row_count] rows are returned in all. *)
Theorem get_ip_from_range_rows (c : connection) (start end_ : string)
    (a b : IPAddr) (limit : limit_spec) :
  IPAddress start = Some a -> IPAddress end_ = Some b ->
  version a = version b ->
  exists rows : list row,
    fst (get_ip_from_range IPAddress start end_ limit c) = Ok rows
    /\ (forall r : address_row,
           In (AddressRow r) rows ->
           In r (addresses_of (db c) (version a))
           /\ (value a <= a_address r <= value b)%N)
    /\ (limit = None ->
        forall r : address_row,
          In r (addresses_of (db c) (version a)) ->
          (value a <= a_address r <= value b)%N ->
          In (AddressRow r) rows)
    /\ (forall offset row_count : nat,
           limit = Some (offset, row_count) -> List.length rows <= row_count).
Proof.
  intros Ha Hb Hv. rewrite (get_ip_from_range_run _ _ _ _ _ _ _ Ha Hb Hv).
  cbn [fst]. eexists. split; [reflexivity |]. split; [| split].
  - intros r Hr.
    apply in_map_AddressRow, in_apply_limit, rows_between_In in Hr. exact Hr.
  - intros -> r Hin Hbounds. cbn [apply_limit].
    apply in_map_AddressRow, rows_between_In. split; assumption.
  - intros offset row_count ->. rewrite length_map. apply length_apply_limit.
Qed.

End RangeRows.

Section Membership.

Variable IPAddress : string -> option IPAddr.

(** X12: for a valid literal, [check_if_ip_in_database] returns [True]
    exactly when the table of the literal's own version holds a row with
    the literal's number; a row with that number in the table of the other
    version plays no part. *)
Theorem check_if_ip_in_database_iff_row (c : connection) (text : string)
    (ip : IPAddr) :
  IPAddress text = Some ip ->
  exists found : bool,
    fst (check_if_ip_in_database IPAddress text c) = Ok found
    /\ (found = true
        <-> exists r : address_row,
              In r (addresses_of (db c) (version ip))
              /\ a_address r = value ip).
Proof.
  intros Hip. rewrite (check_if_ip_in_database_run _ _ _ _ Hip). cbn [fst].
  eexists. split; [reflexivity |].
  unfold address_count.
  destruct (rows_equal (db c) (version ip) (value ip)) as [| r rows] eqn:E.
  - simpl. split; [discriminate |].
    intros (r & Hin & Haddr).
    assert (Hr : In r (rows_equal (db c) (version ip) (value ip))).
    { unfold rows_equal. apply filter_In. split; [exact Hin |].
      apply N.eqb_eq. exact Haddr. }
    rewrite E in Hr. destruct Hr.
  - split; [| reflexivity]. intros _.
    assert (Hr : In r (rows_equal (db c) (version ip) (value ip)))
      by (rewrite E; left; reflexivity).
    unfold rows_equal in Hr. apply filter_In in Hr as [Hin Haddr].
    apply N.eqb_eq in Haddr. exists r. split; assumption.
Qed.

End Membership.

(** ** The further theorems at concrete inputs *)

Lemma invalid_literal_raises_before_execute_witness :
  check_if_ip_in_database sample_IPAddress "10.0.0.256"
    (connect sample_database)
  = (Err AddrFormatError, connect sample_database).
Proof.
  exact (proj2 (proj2 (invalid_literal_raises_before_execute sample_IPAddress
                         (connect sample_database) "10.0.0.256" eq_refl))).
Defined.

Lemma absent_address_has_no_list_witness :
  fst (find_ip_list_type sample_IPAddress "10.0.0.5"
         (snd (check_if_ip_in_database sample_IPAddress "10.0.0.5"
                 (connect large_database))))
  = Ok None.
Proof.
  exact (absent_address_has_no_list sample_IPAddress (connect large_database)
           "10.0.0.5" {| version := V4; value := 167772165 |}
           eq_refl eq_refl).
Defined.

Lemma get_ip_data_injective_witness :
  {| version := V6; value := 255 |} = {| version := V6; value := 255 |}.
Proof.
  exact (get_ip_data_injective sample_IPAddress "::ff" "::ff"
           {| version := V6; value := 255 |} {| version := V6; value := 255 |}
           eq_refl eq_refl eq_refl).
Defined.

Lemma find_ip_list_type_names_witness :
  fst (find_ip_list_type sample_IPAddress "10.0.0.5" (connect sample_database))
  = Ok (Some "whitelist").
Proof.
  apply (proj2 (find_ip_list_type_names sample_IPAddress
                  (connect sample_database) "10.0.0.5"
                  {| version := V4; value := 167772165 |} 1 0
                  eq_refl eq_refl eq_refl)).
  split; [reflexivity | discriminate].
Defined.

Lemma get_ip_with_source_name_unknown_source_witness :
  fst (get_ip_with_source_name "Nobody" (Some (0, 10))
         (connect sample_database))
  = Ok [].
Proof.
  apply (get_ip_with_source_name_unknown_source (connect sample_database)
           "Nobody" (Some (0, 10)) eq_refl).
  simpl. intros s [<- | []]. reflexivity.
Defined.

Lemma get_ip_with_source_name_rows_witness :
  exists rows : list row,
    fst (get_ip_with_source_name "Spamhaus" None (connect sample_database))
    = Ok rows
    /\ (forall r : address_row,
           In (AddressRow r) rows
           <-> (In r (ipv4_addresses sample_database)
                /\ linked_to_source sample_database V4 "Spamhaus" r)
               \/ (In r (ipv6_addresses sample_database)
                   /\ linked_to_source sample_database V6 "Spamhaus" r))
    /\ (forall x : row, In x rows -> exists r, x = AddressRow r).
Proof.
  exact (get_ip_with_source_name_rows (connect sample_database) "Spamhaus"
           eq_refl).
Defined.

Lemma operations_that_close_their_cursor_witness :
  fst (get_ip_with_source_name unbalanced_name None (connect sample_database))
  = Err DatabaseError
  /\ open_cursors
       (snd (get_ip_with_source_name unbalanced_name None
               (connect sample_database))) = 1
  /\ executed
       (calls (snd (get_ip_with_source_name unbalanced_name None
                      (connect sample_database))))
     = [SelectBySource V4 unbalanced_name None].
Proof.
  exact (proj1 (proj2 (proj2
           (operations_that_close_their_cursor sample_IPAddress
              (connect sample_database) unbalanced_name "10.0.0.5"
              (day 737000) (day 737002) None)))
           DatabaseError eq_refl).
Defined.

Lemma get_ips_added_in_range_rows_witness :
  exists rows : list row,
    fst (get_ips_added_in_range (day 737000) (day 737002) None
           (connect sample_database)) = Ok rows
    /\ (forall r : address_row,
           In (AddressRow r) rows ->
           (In r (ipv4_addresses sample_database)
            \/ In r (ipv6_addresses sample_database))
           /\ (737000 <= a_date_added r <= 737002)%Z)
    /\ (@None (nat * nat) = None ->
        forall r : address_row,
          (In r (ipv4_addresses sample_database)
           \/ In r (ipv6_addresses sample_database)) ->
          (737000 <= a_date_added r <= 737002)%Z ->
          In (AddressRow r) rows).
Proof.
  exact (get_ips_added_in_range_rows (connect sample_database)
           (day 737000) (day 737002) None eq_refl).
Defined.

Lemma get_ip_from_range_rows_witness :
  exists rows : list row,
    fst (get_ip_from_range sample_IPAddress "::1" "::ff" (Some (0, 1))
           (connect sample_database)) = Ok rows
    /\ (forall r : address_row,
           In (AddressRow r) rows ->
           In r (ipv6_addresses sample_database)
           /\ (1 <= a_address r <= 255)%N)
    /\ (Some (0, 1) = None ->
        forall r : address_row,
          In r (ipv6_addresses sample_database) ->
          (1 <= a_address r <= 255)%N ->
          In (AddressRow r) rows)
    /\ (forall offset row_count : nat,
           Some (0, 1) = Some (offset, row_count) ->
           List.length rows <= row_count).
Proof.
  exact (get_ip_from_range_rows sample_IPAddress (connect sample_database)
           "::1" "::ff" {| version := V6; value := 1 |}
           {| version := V6; value := 255 |} (Some (0, 1))
           eq_refl eq_refl eq_refl).
Defined.

Lemma check_if_ip_in_database_iff_row_witness :
  exists found : bool,
    fst (check_if_ip_in_database sample_IPAddress "::1"
           (connect sample_database)) = Ok found
    /\ (found = true
        <-> exists r : address_row,
              In r (ipv6_addresses sample_database) /\ a_address r = 1%N).
Proof.
  exact (check_if_ip_in_database_iff_row sample_IPAddress
           (connect sample_database) "::1"
           {| version := V6; value := 1 |} eq_refl).
Defined.

Lemma find_ip_list_type_open_cursors_witness :
  open_cursors (snd (find_ip_list_type sample_IPAddress "10.0.0.9"
                       (connect sample_database))) = 1
  /\ open_cursors (snd (find_ip_list_type sample_IPAddress "10.0.0.5"
                          (connect sample_database))) = 0.
Proof.
  split.
  - exact (find_ip_list_type_open_cursors sample_IPAddress
             (connect sample_database) "10.0.0.9"
             {| version := V4; value := 167772169 |} 0 0
             eq_refl eq_refl eq_refl).
  - exact (find_ip_list_type_open_cursors sample_IPAddress
             (connect sample_database) "10.0.0.5"
             {| version := V4; value := 167772165 |} 1 0
             eq_refl eq_refl eq_refl).
Defined.
